(** * tfsec rule AWS068 (eks / no-public-cluster-access-to-cidr)

  A shallow embedding of the check in
  [internal/app/tfsec/rules/aws/eks/no_public_cluster_access_to_cidr_rule.go]
  together with the collaborators it calls: the block accessor
  ([internal/app/tfsec/block]), the result set ([pkg/result]), the severity
  taxonomy ([pkg/severity]) and the CIDR classifier
  ([internal/app/tfsec/cidr]). *)

From Stdlib Require Import ZArith NArith List String Ascii Bool.
From stdpp Require Import base option strings gmap.
Import ListNotations.

Local Open Scope string_scope.

(** ** pkg/severity *)

Module severity.

(** Modelled from the spec: package [pkg/severity] is not among the sources;
    the levels are the ordered taxonomy the specification lists. *)
Inductive Severity : Set :=
| Critical
| High
| Medium
| Low
| Info.

(** Position in the taxonomy, most severe first. *)
Definition rank (s : Severity) : nat :=
  match s with
  | Critical => 0
  | High => 1
  | Medium => 2
  | Low => 3
  | Info => 4
  end.

Definition eqb (a b : Severity) : bool := Nat.eqb (rank a) (rank b).

End severity.

(** ** internal/app/tfsec/block *)

Module block.

(** Modelled from the spec: package [internal/app/tfsec/block] is not among
    the sources. A source range locates a block or an attribute in its
    file. *)
Record Range : Set := mkRange {
  Filename : string;
  StartLine : Z;
  EndLine : Z
}.

(** Modelled from the spec: an attribute value is a boolean, a scalar string
    or an ordered sequence of strings. *)
Inductive Value : Set :=
| VBool (b : bool)
| VString (s : string)
| VList (l : list string).

(** Modelled from the spec: an attribute is a named value with the source
    range it was read from. [AttrRange] is the method [Attribute.Range()]. *)
Record Attribute : Set := mkAttribute {
  AttrName : string;
  AttrValue : Value;
  AttrRange : Range
}.

(** Modelled from the spec: a block carries a type label, a unique name, its
    own source range, its attributes keyed by name and its nested blocks in
    document order. [FullName] and [BlockRange] are the methods
    [Block.FullName()] and [Block.Range()]. *)
#[warnings="-register-all"]
Inductive Block : Type := mkBlock {
  TypeLabel : string;
  FullName : string;
  BlockRange : Range;
  Attributes : gmap string Attribute;
  Children : list Block
}.

(** Modelled from the spec: the lookup of a nested block by name is nullable
    and resolves to one block, the first one of that type in document
    order. *)
Definition GetBlock (b : Block) (name : string) : option Block :=
  List.find (fun c => String.eqb (TypeLabel c) name) (Children b).

(** Modelled from the spec: nullable lookup of an attribute by name. *)
Definition GetAttribute (b : Block) (name : string) : option Attribute :=
  Attributes b !! name.

(** Modelled from the spec: [HasChild] holds when the block has a nested
    block of the given type, [MissingChild] when it has none. *)
Definition HasChild (b : Block) (childElement : string) : bool :=
  List.existsb (fun c => String.eqb (TypeLabel c) childElement) (Children b).

Definition MissingChild (b : Block) (childElement : string) : bool :=
  negb (HasChild b childElement).

(** Modelled from the spec: [IsFalse] is a boolean-typed query; it holds of
    an attribute whose value is the boolean [false] and of no other. *)
Definition IsFalse (a : Attribute) : bool :=
  match AttrValue a with
  | VBool b => negb b
  | VString _ => false
  | VList _ => false
  end.

(** Modelled from the spec: the network-range strings an attribute holds,
    one for a scalar string, the entries in order for a sequence, none for
    a boolean. *)
Definition ValueAsStrings (a : Attribute) : list string :=
  match AttrValue a with
  | VBool _ => []
  | VString s => [s]
  | VList l => l
  end.

End block.

(** ** internal/app/tfsec/cidr *)

Module cidr.

Import block.

(** A parsed range: the octets of the network prefix and the prefix length. *)
Record CIDR : Set := mkCIDR {
  Network : list N;
  PrefixLen : N
}.

(** Modelled from the spec: package [internal/app/tfsec/cidr] is not among the
    sources. The classifier parses each string into a network prefix and a
    prefix length; which address families the parser accepts is left to the
    system, so it is an interface here. [None] is an unparsable entry. *)
Class Parser : Type := ParseCIDR : string -> option CIDR.

(** *** An IPv4 parser: [a.b.c.d/n], decimal octets up to 255, [n] up to 32 *)

Definition digit_of (c : ascii) : option N :=
  let n := N_of_ascii c in
  if (48 <=? n)%N && (n <=? 57)%N then Some (n - 48)%N else None.

Fixpoint parse_digits (acc : N) (s : string) : option N :=
  match s with
  | EmptyString => Some acc
  | String c rest =>
      match digit_of c with
      | Some d => parse_digits (acc * 10 + d)%N rest
      | None => None
      end
  end.

Definition parse_dec (s : string) : option N :=
  match s with
  | EmptyString => None
  | _ => parse_digits 0%N s
  end.

(** The fields of [s] between occurrences of [sep]; [cur] is the field being
    read, in reverse. *)
Fixpoint split_on (sep : ascii) (cur : list ascii) (s : string) : list string :=
  match s with
  | EmptyString => [string_of_list_ascii (List.rev cur)]
  | String c rest =>
      if Ascii.eqb c sep
      then string_of_list_ascii (List.rev cur) :: split_on sep [] rest
      else split_on sep (c :: cur) rest
  end.

Definition parse_octet (s : string) : option N :=
  match parse_dec s with
  | Some n => if (n <=? 255)%N then Some n else None
  | None => None
  end.

Definition parse_ipv4 (s : string) : option (list N) :=
  match split_on "." [] s with
  | [a; b; c; d] =>
      match parse_octet a, parse_octet b, parse_octet c, parse_octet d with
      | Some a', Some b', Some c', Some d' => Some [a'; b'; c'; d']
      | _, _, _, _ => None
      end
  | _ => None
  end.

Definition ParseIPv4CIDR (s : string) : option CIDR :=
  match split_on "/" [] s with
  | [addr; len] =>
      match parse_ipv4 addr, parse_dec len with
      | Some ip, Some n =>
          if (n <=? 32)%N then Some (mkCIDR ip n) else None
      | _, _ => None
      end
  | _ => None
  end.

Definition ipv4_parser : Parser := ParseIPv4CIDR.

Section Classifier.

Context {parser : Parser}.

(** Modelled from the spec: one entry is open when it parses and its prefix
    length is zero; an unparsable entry is not open. *)
Definition entryIsOpen (entry : string) : bool :=
  match ParseCIDR entry with
  | Some c => (PrefixLen c =? 0)%N
  | None => false
  end.

(** Modelled from the spec: the entries are visited in order and the first
    open one settles the answer. *)
Fixpoint anyOpen (entries : list string) : bool :=
  match entries with
  | [] => false
  | entry :: rest => if entryIsOpen entry then true else anyOpen rest
  end.

(** Modelled from the spec: [IsOpen(attribute)] holds when any entry of the
    attribute is open. *)
Definition IsOpen (attr : Attribute) : bool :=
  anyOpen (ValueAsStrings attr).

End Classifier.

End cidr.

(** ** pkg/result *)

Module result.

Import block.

(** Modelled from the spec: package [pkg/result] is not among the sources. A
    result names the resource it was raised for, describes the issue, carries
    a source range (the resource's own unless a finer one is given) and may
    name the offending attribute. *)
Record Result : Set := mkResult {
  ResourceName : string;
  Description : string;
  Range : block.Range;
  Annotation : option Attribute
}.

(** Modelled from the spec: [result.New(block)] starts a result for the block,
    located at the block's own range and with no attribute annotated. *)
Definition New (resourceBlock : Block) : Result :=
  {| ResourceName := FullName resourceBlock;
     Description := "";
     Range := BlockRange resourceBlock;
     Annotation := None |}.

Definition WithDescription (r : Result) (description : string) : Result :=
  {| ResourceName := ResourceName r;
     Description := description;
     Range := Range r;
     Annotation := Annotation r |}.

Definition WithRange (r : Result) (codeRange : block.Range) : Result :=
  {| ResourceName := ResourceName r;
     Description := Description r;
     Range := codeRange;
     Annotation := Annotation r |}.

Definition WithAttributeAnnotation (r : Result) (attr : Attribute) : Result :=
  {| ResourceName := ResourceName r;
     Description := Description r;
     Range := Range r;
     Annotation := Some attr |}.

(** Modelled from the spec: a finding is a result together with its severity
    level. *)
Record Finding : Set := mkFinding {
  FindingResult : Result;
  Severity : severity.Severity
}.

(** Modelled from the spec: [result.Set], the append-only collection owned by
    the caller. It is set up for one rule and remembers that rule's default
    severity. *)
Record ResultSet : Set := mkResultSet {
  RuleSeverity : severity.Severity;
  Findings : list Finding
}.

(** Modelled from the spec: [Set.Add] appends the result, at the rule's default
    severity, after the findings already held. *)
Definition Add (set : ResultSet) (r : Result) : ResultSet :=
  {| RuleSeverity := RuleSeverity set;
     Findings := Findings set ++ [mkFinding r (RuleSeverity set)] |}.

End result.

(** ** internal/app/tfsec/hclcontext *)

Module hclcontext.

(** Modelled from the spec: the evaluation context handed to every check; this
    rule never reads it. *)
Inductive Context : Set := mkContext.

End hclcontext.

(** ** pkg/provider *)

Module provider.

(** Modelled from the spec: package [pkg/provider] is not among the sources; a
    provider is known by its name. *)
Definition RuleProvider : Set := string.

Definition AWSProvider : RuleProvider := "aws".

End provider.

(** ** pkg/rule *)

Module rule.

Import block.

(** Modelled from the spec: the descriptor of a rule, with the fields the
    registration in the source fills in (the documentation texts apart). *)
Record Rule : Type := mkRule {
  LegacyID : string;
  Service : string;
  ShortCode : string;
  Provider : provider.RuleProvider;
  RequiredTypes : list string;
  RequiredLabels : list string;
  DefaultSeverity : severity.Severity;
  CheckFunc : result.ResultSet -> Block -> option hclcontext.Context ->
              option result.ResultSet
}.

End rule.

(** ** internal/app/tfsec/rules/aws/eks *)

Module eks.

Import block.

Section Rule.

Context {parser : cidr.Parser}.

(** [fmt.Sprintf] with the one [%s] of each of the two messages. *)
Definition defaultCidrDescription (fullName : string) : string :=
  "Resource '" ++ fullName ++ "' uses the default public access cidr of 0.0.0.0/0".

Definition openCidrDescription (fullName : string) : string :=
  "Resource '" ++ fullName ++ "' has public access cidr explicitly set to wide open".

(** The function literal bound to [CheckFunc]. The result is [None] only if
    [vpcConfig] were nil when it is dereferenced. *)
Definition CheckFunc (set : result.ResultSet) (resourceBlock : Block)
    (_ : option hclcontext.Context) : option result.ResultSet :=
  if MissingChild resourceBlock "vpc_config" then Some set
  else
    match GetBlock resourceBlock "vpc_config" with
    | None => None
    | Some vpcConfig =>
        let publicAccessEnabledAttr :=
          GetAttribute vpcConfig "endpoint_public_access" in
        if match publicAccessEnabledAttr with
           | Some a => IsFalse a
           | None => false
           end
        then Some set
        else
          let publicAccessCidrsAttr :=
            GetAttribute vpcConfig "public_access_cidrs" in
          match publicAccessCidrsAttr with
          | None =>
              Some (result.Add set
                      (result.WithDescription (result.New resourceBlock)
                         (defaultCidrDescription (FullName resourceBlock))))
          | Some cidrs =>
              if cidr.IsOpen cidrs
              then
                Some (result.Add set
                        (result.WithAttributeAnnotation
                           (result.WithRange
                              (result.WithDescription (result.New resourceBlock)
                                 (openCidrDescription (FullName resourceBlock)))
                              (AttrRange cidrs))
                           cidrs))
              else Some set
          end
    end.

(** The descriptor passed to [scanner.RegisterCheckRule]. *)
Definition noPublicClusterAccessToCidr : rule.Rule :=
  {| rule.LegacyID := "AWS068";
     rule.Service := "eks";
     rule.ShortCode := "no-public-cluster-access-to-cidr";
     rule.Provider := provider.AWSProvider;
     rule.RequiredTypes := ["resource"];
     rule.RequiredLabels := ["aws_eks_cluster"];
     rule.DefaultSeverity := severity.Critical;
     rule.CheckFunc := CheckFunc |}.

(** Modelled from the spec: [Evaluate(resource, resultCollection)], the entry
    point the registry calls for a matching resource. The check runs on the
    caller's collection, set up with the rule's default severity, and the
    collection it leaves is handed back. *)
Definition Evaluate (resource : Block) (resultCollection : list result.Finding)
    (ctx : option hclcontext.Context) : option (list result.Finding) :=
  let r := noPublicClusterAccessToCidr in
  match rule.CheckFunc r
          (result.mkResultSet (rule.DefaultSeverity r) resultCollection)
          resource ctx with
  | Some set => Some (result.Findings set)
  | None => None
  end.

End Rule.

(** What the rule reads of a resource: whether [vpc_config] is there and, if
    so, the values of its two attributes, each absent or present. *)
Definition ruleInputs (resource : Block) : option (option Value * option Value) :=
  match GetBlock resource "vpc_config" with
  | None => None
  | Some vpcConfig =>
      Some (AttrValue <$> GetAttribute vpcConfig "endpoint_public_access",
            AttrValue <$> GetAttribute vpcConfig "public_access_cidrs")
  end.

(** The two findings the check can add, as they stand in the collection of
    this rule: the one built for a missing [public_access_cidrs] and the one
    built for an open [public_access_cidrs]. *)
Definition defaultCidrFinding (resource : Block) : result.Finding :=
  result.mkFinding
    (result.WithDescription (result.New resource)
       (defaultCidrDescription (FullName resource)))
    severity.Critical.

Definition openCidrFinding (resource : Block) (cidrs : Attribute) : result.Finding :=
  result.mkFinding
    (result.WithAttributeAnnotation
       (result.WithRange
          (result.WithDescription (result.New resource)
             (openCidrDescription (FullName resource)))
          (AttrRange cidrs))
       cidrs)
    severity.Critical.

End eks.

(** ** Sample resources: the scenarios of the rule's documentation *)

Module fixtures.

Import block.

Definition at_line (line : Z) : Range := mkRange "main.tf" line line.

Definition boolAttr (name : string) (v : bool) (line : Z) : Attribute :=
  mkAttribute name (VBool v) (at_line line).

Definition listAttr (name : string) (v : list string) (line : Z) : Attribute :=
  mkAttribute name (VList v) (at_line line).

Definition vpcConfig (attrs : list Attribute) : Block :=
  mkBlock "vpc_config" "aws_eks_cluster.example.vpc_config" (mkRange "main.tf" 6 9)
    (list_to_map (List.map (fun a => (AttrName a, a)) attrs)) [].

Definition cluster (children : list Block) : Block :=
  mkBlock "resource" "aws_eks_cluster.example" (mkRange "main.tf" 1 10)
    {[ "name" := mkAttribute "name" (VString "example_cluster") (at_line 4) ]}
    children.

Definition publicCidrs (entries : list string) : Attribute :=
  listAttr "public_access_cidrs" entries 8.

(** Public access on, CIDR list given. *)
Definition vpcWithCidrs (entries : list string) : Block :=
  vpcConfig [boolAttr "endpoint_public_access" true 7; publicCidrs entries].

Definition clusterWithCidrs (entries : list string) : Block :=
  cluster [vpcWithCidrs entries].

(** Public access on, no CIDR list. *)
Definition vpcDefaultCidrs : Block :=
  vpcConfig [boolAttr "endpoint_public_access" true 7].

Definition clusterDefaultCidrs : Block :=
  cluster [vpcDefaultCidrs].

(** The same settings in another cluster, written elsewhere and next to
    unrelated configuration. *)
Definition otherClusterDefaultCidrs : Block :=
  mkBlock "resource" "aws_eks_cluster.other" (mkRange "other.tf" 40 60)
    {[ "role_arn" := mkAttribute "role_arn" (VString "var.cluster_arn") (at_line 42) ]}
    [mkBlock "encryption_config" "aws_eks_cluster.other.encryption_config"
       (mkRange "other.tf" 44 48) ∅ [];
     mkBlock "vpc_config" "aws_eks_cluster.other.vpc_config" (mkRange "other.tf" 50 58)
       {[ "endpoint_public_access" := boolAttr "endpoint_public_access" true 51;
          "subnet_ids" := listAttr "subnet_ids" ["subnet-1"; "subnet-2"] 52 ]} []].

(** Public access switched off, CIDR list wide open. *)
Definition endpointOff : Attribute := boolAttr "endpoint_public_access" false 7.

Definition vpcPrivate : Block :=
  vpcConfig [endpointOff; publicCidrs ["0.0.0.0/0"]].

Definition clusterPrivate : Block :=
  cluster [vpcPrivate].

(** No [vpc_config] block at all. *)
Definition clusterNoVpcConfig : Block :=
  cluster [mkBlock "encryption_config" "aws_eks_cluster.example.encryption_config"
             (mkRange "main.tf" 6 9) ∅ []].

(** A finding already in the caller's collection, from some other rule. *)
Definition earlierFinding : result.Finding :=
  result.mkFinding
    (result.mkResult "aws_s3_bucket.logs" "Resource 'aws_s3_bucket.logs' has no encryption"
       (mkRange "main.tf" 20 30) None)
    severity.High.

End fixtures.

(** ** Properties of the accessor and of the classifier *)

Section Accessor.

Import block.

Lemma MissingChild_GetBlock (b : Block) (name : string) :
  MissingChild b name = true <-> GetBlock b name = None.
Proof.
  unfold MissingChild, HasChild, GetBlock.
  induction (Children b) as [|c cs IH]; simpl.
  - split; reflexivity.
  - destruct (String.eqb (TypeLabel c) name); simpl.
    + split; discriminate.
    + exact IH.
Qed.

Lemma GetBlock_None_iff (b : Block) (name : string) :
  GetBlock b name = None <->
  (forall c, In c (Children b) -> TypeLabel c <> name).
Proof.
  unfold GetBlock. split.
  - intros Hnone c Hin Heq.
    pose proof (List.find_none _ _ Hnone c Hin) as Hc.
    simpl in Hc. apply String.eqb_neq in Hc. contradiction.
  - intros Hall. induction (Children b) as [|c cs IH]; simpl; [reflexivity|].
    destruct (String.eqb (TypeLabel c) name) eqn:E.
    + apply String.eqb_eq in E. exfalso. apply (Hall c); [left; reflexivity|exact E].
    + apply IH. intros c' Hin. apply Hall. right. exact Hin.
Qed.

End Accessor.

Section ClassifierFacts.

Import block.

Context {parser : cidr.Parser}.

Lemma anyOpen_true_iff (entries : list string) :
  cidr.anyOpen entries = true <->
  exists entry, In entry entries /\ cidr.entryIsOpen entry = true.
Proof.
  induction entries as [|e rest IH]; simpl.
  - split; [discriminate|intros (x & [] & _)].
  - destruct (cidr.entryIsOpen e) eqn:E.
    + split; [|reflexivity]. intros _. exists e. split; [left; reflexivity|exact E].
    + rewrite IH. split.
      * intros (x & Hin & Hx). exists x. split; [right; exact Hin|exact Hx].
      * intros (x & [->|Hin] & Hx); [congruence|]. exists x. split; assumption.
Qed.

Lemma entryIsOpen_true_iff (entry : string) :
  cidr.entryIsOpen entry = true <->
  exists c, cidr.ParseCIDR entry = Some c /\ cidr.PrefixLen c = 0%N.
Proof.
  unfold cidr.entryIsOpen. destruct (cidr.ParseCIDR entry) as [c|].
  - rewrite N.eqb_eq. split.
    + intros H. exists c. split; [reflexivity|exact H].
    + intros (c' & [= <-] & H). exact H.
  - split; [discriminate|intros (c & [=] & _)].
Qed.

Lemma anyOpen_app (l1 l2 : list string) :
  cidr.anyOpen (l1 ++ l2) = cidr.anyOpen l1 || cidr.anyOpen l2.
Proof.
  induction l1 as [|e l1 IH]; simpl; [reflexivity|].
  destruct (cidr.entryIsOpen e); [reflexivity|exact IH].
Qed.

Lemma anyOpen_skip (l1 l2 : list string) (entry : string) :
  cidr.entryIsOpen entry = false ->
  cidr.anyOpen (l1 ++ entry :: l2) = cidr.anyOpen (l1 ++ l2).
Proof.
  intros H. rewrite !anyOpen_app. simpl. rewrite H. reflexivity.
Qed.

End ClassifierFacts.

(** ** The check, branch by branch *)

Section CheckFuncFacts.

Import block.

Context {parser : cidr.Parser}.

Lemma CheckFunc_no_vpc_config set resource ctx :
  GetBlock resource "vpc_config" = None ->
  eks.CheckFunc set resource ctx = Some set.
Proof.
  intros H. unfold eks.CheckFunc.
  apply MissingChild_GetBlock in H. rewrite H. reflexivity.
Qed.

Lemma CheckFunc_vpc_config set resource ctx vpcConfig :
  GetBlock resource "vpc_config" = Some vpcConfig ->
  eks.CheckFunc set resource ctx =
    if match GetAttribute vpcConfig "endpoint_public_access" with
       | Some a => IsFalse a
       | None => false
       end
    then Some set
    else
      match GetAttribute vpcConfig "public_access_cidrs" with
      | None =>
          Some (result.Add set
                  (result.WithDescription (result.New resource)
                     (eks.defaultCidrDescription (FullName resource))))
      | Some cidrs =>
          if cidr.IsOpen cidrs
          then
            Some (result.Add set
                    (result.WithAttributeAnnotation
                       (result.WithRange
                          (result.WithDescription (result.New resource)
                             (eks.openCidrDescription (FullName resource)))
                          (AttrRange cidrs))
                       cidrs))
          else Some set
      end.
Proof.
  intros H. unfold eks.CheckFunc.
  destruct (MissingChild resource "vpc_config") eqn:M.
  - apply MissingChild_GetBlock in M. congruence.
  - rewrite H. reflexivity.
Qed.

Lemma not_explicitly_false (o : option Attribute) :
  (forall a, o = Some a -> IsFalse a = false) ->
  match o with Some a => IsFalse a | None => false end = false.
Proof.
  intros H. destruct o as [a|]; [apply H|]; reflexivity.
Qed.

Lemma IsFalse_value (a a' : Attribute) :
  AttrValue a = AttrValue a' -> IsFalse a = IsFalse a'.
Proof. unfold IsFalse. intros ->. reflexivity. Qed.

Lemma IsOpen_value (a a' : Attribute) :
  AttrValue a = AttrValue a' -> cidr.IsOpen a = cidr.IsOpen a'.
Proof. unfold cidr.IsOpen, ValueAsStrings. intros ->. reflexivity. Qed.

End CheckFuncFacts.

(** Unfolds [Evaluate] down to the check on a [vpc_config] block that is
    known. *)
Ltac evaluate_with H :=
  unfold eks.Evaluate; simpl;
  rewrite (CheckFunc_vpc_config _ _ _ _ H).

(** ** The rule's contract *)

Section Claims.

Import block.

Context {parser : cidr.Parser}.

(** C1. When [vpc_config] is present, [endpoint_public_access] is not
    explicitly false and [public_access_cidrs] is present and classified open,
    [Evaluate] appends exactly one finding: Critical, located at the range of
    the [public_access_cidrs] attribute and annotated with that attribute. *)
Theorem Evaluate_open_cidrs resource vpcConfig cidrs collection ctx :
  GetBlock resource "vpc_config" = Some vpcConfig ->
  (forall a, GetAttribute vpcConfig "endpoint_public_access" = Some a ->
             IsFalse a = false) ->
  GetAttribute vpcConfig "public_access_cidrs" = Some cidrs ->
  cidr.IsOpen cidrs = true ->
  exists f,
    eks.Evaluate resource collection ctx = Some (collection ++ [f])%list /\
    result.Severity f = severity.Critical /\
    result.Range (result.FindingResult f) = AttrRange cidrs /\
    result.Annotation (result.FindingResult f) = Some cidrs /\
    result.ResourceName (result.FindingResult f) = FullName resource /\
    result.Description (result.FindingResult f) =
      eks.openCidrDescription (FullName resource).
Proof.
  intros Hvpc Hpub Hcidrs Hopen. eexists.
  evaluate_with Hvpc.
  rewrite (not_explicitly_false _ Hpub), Hcidrs, Hopen. simpl.
  repeat split; reflexivity.
Qed.

(** C2. When [vpc_config] is present, [endpoint_public_access] is absent or
    not false and [public_access_cidrs] is absent, [Evaluate] appends exactly
    one finding: Critical, located at the resource's own range, with no
    attribute annotated, describing the reliance on the open default. *)
Theorem Evaluate_default_cidrs resource vpcConfig collection ctx :
  GetBlock resource "vpc_config" = Some vpcConfig ->
  (forall a, GetAttribute vpcConfig "endpoint_public_access" = Some a ->
             IsFalse a = false) ->
  GetAttribute vpcConfig "public_access_cidrs" = None ->
  exists f,
    eks.Evaluate resource collection ctx = Some (collection ++ [f])%list /\
    result.Severity f = severity.Critical /\
    result.Range (result.FindingResult f) = BlockRange resource /\
    result.Annotation (result.FindingResult f) = None /\
    result.ResourceName (result.FindingResult f) = FullName resource /\
    result.Description (result.FindingResult f) =
      eks.defaultCidrDescription (FullName resource).
Proof.
  intros Hvpc Hpub Hcidrs. eexists.
  evaluate_with Hvpc.
  rewrite (not_explicitly_false _ Hpub), Hcidrs. simpl.
  repeat split; reflexivity.
Qed.

(** C3. When the [endpoint_public_access] attribute of [vpc_config] is present
    and false, [Evaluate] appends nothing, whatever [public_access_cidrs]
    is. *)
Theorem Evaluate_public_access_disabled resource vpcConfig a collection ctx :
  GetBlock resource "vpc_config" = Some vpcConfig ->
  GetAttribute vpcConfig "endpoint_public_access" = Some a ->
  IsFalse a = true ->
  eks.Evaluate resource collection ctx = Some collection.
Proof.
  intros Hvpc Hpub Hfalse.
  evaluate_with Hvpc. rewrite Hpub, Hfalse. reflexivity.
Qed.

(** C4. When the resource has no nested [vpc_config] block, [Evaluate] appends
    nothing. *)
Theorem Evaluate_no_vpc_config resource collection ctx :
  (forall c, In c (Children resource) -> TypeLabel c <> "vpc_config") ->
  eks.Evaluate resource collection ctx = Some collection.
Proof.
  intros Hnone. apply GetBlock_None_iff in Hnone.
  unfold eks.Evaluate. simpl.
  rewrite (CheckFunc_no_vpc_config _ _ _ Hnone). reflexivity.
Qed.

(** C5. When [public_access_cidrs] is present and not classified open, and
    [endpoint_public_access] is not explicitly false, [Evaluate] appends
    nothing; in particular when no entry of the list has prefix length
    zero. *)
Theorem Evaluate_restricted_cidrs resource vpcConfig cidrs collection ctx :
  GetBlock resource "vpc_config" = Some vpcConfig ->
  (forall a, GetAttribute vpcConfig "endpoint_public_access" = Some a ->
             IsFalse a = false) ->
  GetAttribute vpcConfig "public_access_cidrs" = Some cidrs ->
  (cidr.IsOpen cidrs = false ->
   eks.Evaluate resource collection ctx = Some collection) /\
  ((forall entry c, In entry (ValueAsStrings cidrs) ->
                    cidr.ParseCIDR entry = Some c -> cidr.PrefixLen c <> 0%N) ->
   eks.Evaluate resource collection ctx = Some collection).
Proof.
  intros Hvpc Hpub Hcidrs.
  assert (Hclosed : cidr.IsOpen cidrs = false ->
                    eks.Evaluate resource collection ctx = Some collection).
  { intros Hopen. evaluate_with Hvpc.
    rewrite (not_explicitly_false _ Hpub), Hcidrs, Hopen. reflexivity. }
  split; [exact Hclosed|].
  intros Hall. apply Hclosed.
  destruct (cidr.IsOpen cidrs) eqn:E; [|reflexivity].
  unfold cidr.IsOpen in E. apply anyOpen_true_iff in E.
  destruct E as (entry & Hin & He).
  apply entryIsOpen_true_iff in He. destruct He as (c & Hc & Hzero).
  exfalso. exact (Hall entry c Hin Hc Hzero).
Qed.

(** C6. [IsOpen] answers true exactly when some entry of the attribute parses
    to a prefix length of zero. It answers false on an empty sequence, and on
    a non-empty one none of whose entries is fully open. *)
Theorem IsOpen_iff_zero_prefix (attr : Attribute) :
  (cidr.IsOpen attr = true <->
   exists entry c, In entry (ValueAsStrings attr) /\
                   cidr.ParseCIDR entry = Some c /\ cidr.PrefixLen c = 0%N) /\
  (ValueAsStrings attr = [] -> cidr.IsOpen attr = false) /\
  (ValueAsStrings attr <> [] ->
   (forall entry c, In entry (ValueAsStrings attr) ->
                    cidr.ParseCIDR entry = Some c -> cidr.PrefixLen c <> 0%N) ->
   cidr.IsOpen attr = false).
Proof.
  assert (Hiff : cidr.IsOpen attr = true <->
                 exists entry c, In entry (ValueAsStrings attr) /\
                   cidr.ParseCIDR entry = Some c /\ cidr.PrefixLen c = 0%N).
  { unfold cidr.IsOpen. rewrite anyOpen_true_iff. split.
    - intros (entry & Hin & He). apply entryIsOpen_true_iff in He.
      destruct He as (c & Hc & Hz). exists entry, c. auto.
    - intros (entry & c & Hin & Hc & Hz). exists entry. split; [exact Hin|].
      apply entryIsOpen_true_iff. exists c. auto. }
  split; [exact Hiff|]. split.
  - intros Hnil. unfold cidr.IsOpen. rewrite Hnil. reflexivity.
  - intros _ Hall. apply not_true_is_false. intros E.
    apply Hiff in E. destruct E as (entry & c & Hin & Hc & Hz).
    exfalso. exact (Hall entry c Hin Hc Hz).
Qed.

(** C7. A malformed entry does not stop the classifier and is treated as not
    open: dropping it from the sequence leaves the answer unchanged, an
    answer of true is always owed to another, well-formed entry of prefix
    length zero, and a sequence of malformed entries only is not open. *)
Theorem IsOpen_skips_malformed (attr : Attribute) (entry : string) :
  In entry (ValueAsStrings attr) ->
  cidr.ParseCIDR entry = None ->
  (forall l1 l2 attr',
      ValueAsStrings attr = (l1 ++ entry :: l2)%list ->
      ValueAsStrings attr' = (l1 ++ l2)%list ->
      cidr.IsOpen attr = cidr.IsOpen attr') /\
  (cidr.IsOpen attr = true ->
   exists entry' c, In entry' (ValueAsStrings attr) /\ entry' <> entry /\
                    cidr.ParseCIDR entry' = Some c /\ cidr.PrefixLen c = 0%N) /\
  ((forall e, In e (ValueAsStrings attr) -> cidr.ParseCIDR e = None) ->
   cidr.IsOpen attr = false).
Proof.
  intros Hin Hbad.
  assert (Hclosed : cidr.entryIsOpen entry = false).
  { unfold cidr.entryIsOpen. rewrite Hbad. reflexivity. }
  split; [|split].
  - intros l1 l2 attr' H1 H2. unfold cidr.IsOpen. rewrite H1, H2.
    apply anyOpen_skip. exact Hclosed.
  - intros Hopen. unfold cidr.IsOpen in Hopen.
    apply anyOpen_true_iff in Hopen. destruct Hopen as (e & He & Hopen).
    pose proof Hopen as Hparse. apply entryIsOpen_true_iff in Hparse.
    destruct Hparse as (c & Hc & Hz). exists e, c.
    repeat split; try assumption. intros ->. congruence.
  - intros Hall. destruct (cidr.IsOpen attr) eqn:E; [|reflexivity].
    unfold cidr.IsOpen in E. apply anyOpen_true_iff in E.
    destruct E as (e & He & Hopen). apply entryIsOpen_true_iff in Hopen.
    destruct Hopen as (c & Hc & _). rewrite (Hall e He) in Hc. discriminate.
Qed.

(** C8. [Evaluate] hands back the initial collection with nothing or with one
    finding appended at the end; the entries already there stay as they are,
    in place. *)
Theorem Evaluate_appends_at_most_one resource collection ctx :
  eks.Evaluate resource collection ctx = Some collection \/
  exists f, eks.Evaluate resource collection ctx = Some (collection ++ [f])%list.
Proof.
  destruct (GetBlock resource "vpc_config") as [vpcConfig|] eqn:Hvpc.
  - evaluate_with Hvpc.
    destruct (match GetAttribute vpcConfig "endpoint_public_access" with
              | Some a => IsFalse a
              | None => false
              end); [left; reflexivity|].
    destruct (GetAttribute vpcConfig "public_access_cidrs") as [cidrs|].
    + destruct (cidr.IsOpen cidrs); [right; eexists|left]; reflexivity.
    + right. eexists. reflexivity.
  - left. unfold eks.Evaluate. simpl.
    rewrite (CheckFunc_no_vpc_config _ _ _ Hvpc). reflexivity.
Qed.

(** C9. [Evaluate] is deterministic: what it appends is a function of the
    resource tree alone. The same list is appended whatever the collection
    and the context it is started with, so two invocations on the same tree
    append identical lists. *)
Theorem Evaluate_deterministic resource :
  exists appended, forall collection ctx,
    eks.Evaluate resource collection ctx = Some (collection ++ appended)%list.
Proof.
  destruct (GetBlock resource "vpc_config") as [vpcConfig|] eqn:Hvpc.
  - destruct (match GetAttribute vpcConfig "endpoint_public_access" with
              | Some a => IsFalse a
              | None => false
              end) eqn:Hpub.
    + exists []. intros collection ctx. evaluate_with Hvpc.
      rewrite Hpub, app_nil_r. reflexivity.
    + destruct (GetAttribute vpcConfig "public_access_cidrs") as [cidrs|] eqn:Hc.
      * destruct (cidr.IsOpen cidrs) eqn:Hopen.
        -- exists [result.mkFinding
                     (result.WithAttributeAnnotation
                        (result.WithRange
                           (result.WithDescription (result.New resource)
                              (eks.openCidrDescription (FullName resource)))
                           (AttrRange cidrs))
                        cidrs)
                     severity.Critical].
           intros collection ctx. evaluate_with Hvpc.
           rewrite Hpub, Hc, Hopen. reflexivity.
        -- exists []. intros collection ctx. evaluate_with Hvpc.
           rewrite Hpub, Hc, Hopen, app_nil_r. reflexivity.
      * exists [result.mkFinding
                  (result.WithDescription (result.New resource)
                     (eks.defaultCidrDescription (FullName resource)))
                  severity.Critical].
        intros collection ctx. evaluate_with Hvpc.
        rewrite Hpub, Hc. reflexivity.
  - exists []. intros collection ctx. unfold eks.Evaluate. simpl.
    rewrite (CheckFunc_no_vpc_config _ _ _ Hvpc), app_nil_r. reflexivity.
Qed.

(** C10. Two resources that agree on the presence of [vpc_config] and on the
    presence and value of its [endpoint_public_access] and
    [public_access_cidrs] attributes are treated alike: either no finding for
    both, or one finding for each, at the same severity and from the same
    branch of the check (the default-range message without annotation for
    both, or the wide-open message with an annotated attribute of equal value
    for both). Whatever else the resources hold shows only in the name and
    the source range the finding carries. *)
Theorem Evaluate_noninterference resource1 resource2 collection1 collection2 ctx1 ctx2 :
  eks.ruleInputs resource1 = eks.ruleInputs resource2 ->
  (eks.Evaluate resource1 collection1 ctx1 = Some collection1 /\
   eks.Evaluate resource2 collection2 ctx2 = Some collection2) \/
  (exists f1 f2,
      eks.Evaluate resource1 collection1 ctx1 = Some (collection1 ++ [f1])%list /\
      eks.Evaluate resource2 collection2 ctx2 = Some (collection2 ++ [f2])%list /\
      result.Severity f1 = result.Severity f2 /\
      result.ResourceName (result.FindingResult f1) = FullName resource1 /\
      result.ResourceName (result.FindingResult f2) = FullName resource2 /\
      ((result.Description (result.FindingResult f1) =
          eks.defaultCidrDescription (FullName resource1) /\
        result.Description (result.FindingResult f2) =
          eks.defaultCidrDescription (FullName resource2) /\
        result.Annotation (result.FindingResult f1) = None /\
        result.Annotation (result.FindingResult f2) = None) \/
       (result.Description (result.FindingResult f1) =
          eks.openCidrDescription (FullName resource1) /\
        result.Description (result.FindingResult f2) =
          eks.openCidrDescription (FullName resource2) /\
        exists a1 a2,
          result.Annotation (result.FindingResult f1) = Some a1 /\
          result.Annotation (result.FindingResult f2) = Some a2 /\
          AttrValue a1 = AttrValue a2))).
Proof.
  unfold eks.ruleInputs. intros Hsame.
  destruct (GetBlock resource1 "vpc_config") as [vpc1|] eqn:Hvpc1;
    destruct (GetBlock resource2 "vpc_config") as [vpc2|] eqn:Hvpc2;
    try discriminate.
  - injection Hsame as Hpub Hcidrs.
    unfold eks.Evaluate. simpl.
    rewrite (CheckFunc_vpc_config _ _ _ _ Hvpc1), (CheckFunc_vpc_config _ _ _ _ Hvpc2).
    assert (Hflag :
              match GetAttribute vpc1 "endpoint_public_access" with
              | Some a => IsFalse a
              | None => false
              end =
              match GetAttribute vpc2 "endpoint_public_access" with
              | Some a => IsFalse a
              | None => false
              end).
    { destruct (GetAttribute vpc1 "endpoint_public_access") as [a1|];
        destruct (GetAttribute vpc2 "endpoint_public_access") as [a2|];
        simpl in Hpub; try discriminate; [|reflexivity].
      injection Hpub as Hv. apply IsFalse_value. exact Hv. }
    rewrite Hflag.
    destruct (match GetAttribute vpc2 "endpoint_public_access" with
              | Some a => IsFalse a
              | None => false
              end); [left; split; reflexivity|].
    destruct (GetAttribute vpc1 "public_access_cidrs") as [c1|];
      destruct (GetAttribute vpc2 "public_access_cidrs") as [c2|];
      simpl in Hcidrs; try discriminate.
    + injection Hcidrs as Hv. rewrite (IsOpen_value c1 c2 Hv).
      destruct (cidr.IsOpen c2); [|left; split; reflexivity].
      right. do 2 eexists. simpl.
      repeat (split; [reflexivity|]).
      right. repeat (split; [reflexivity|]).
      exists c1, c2. repeat split; [reflexivity..|exact Hv].
    + right. do 2 eexists. simpl.
      repeat (split; [reflexivity|]).
      left. repeat split; reflexivity.
  - left. unfold eks.Evaluate. simpl.
    rewrite (CheckFunc_no_vpc_config _ _ _ Hvpc1), (CheckFunc_no_vpc_config _ _ _ Hvpc2).
    split; reflexivity.
Qed.

End Claims.

(** ** The contract on the sample resources *)

Section Scenarios.

Import block fixtures.

#[local] Existing Instance cidr.ipv4_parser.

Lemma Evaluate_open_cidrs_witness :
  GetBlock (clusterWithCidrs ["10.2.0.0/8"; "0.0.0.0/0"]) "vpc_config" =
    Some (vpcWithCidrs ["10.2.0.0/8"; "0.0.0.0/0"]) /\
  GetAttribute (vpcWithCidrs ["10.2.0.0/8"; "0.0.0.0/0"]) "public_access_cidrs" =
    Some (publicCidrs ["10.2.0.0/8"; "0.0.0.0/0"]) /\
  cidr.IsOpen (publicCidrs ["10.2.0.0/8"; "0.0.0.0/0"]) = true /\
  exists f,
    eks.Evaluate (clusterWithCidrs ["10.2.0.0/8"; "0.0.0.0/0"]) [earlierFinding] None =
      Some ([earlierFinding] ++ [f])%list /\
    result.Severity f = severity.Critical /\
    result.Range (result.FindingResult f) = at_line 8 /\
    result.Annotation (result.FindingResult f) =
      Some (publicCidrs ["10.2.0.0/8"; "0.0.0.0/0"]) /\
    result.ResourceName (result.FindingResult f) = "aws_eks_cluster.example" /\
    result.Description (result.FindingResult f) =
      "Resource 'aws_eks_cluster.example' has public access cidr explicitly set to wide open".
Proof.
  assert (Hvpc : GetBlock (clusterWithCidrs ["10.2.0.0/8"; "0.0.0.0/0"]) "vpc_config" =
                 Some (vpcWithCidrs ["10.2.0.0/8"; "0.0.0.0/0"]))
    by (vm_compute; reflexivity).
  assert (Hpub : forall a,
             GetAttribute (vpcWithCidrs ["10.2.0.0/8"; "0.0.0.0/0"])
               "endpoint_public_access" = Some a -> IsFalse a = false)
    by (intros a Ha; vm_compute in Ha; injection Ha as <-; reflexivity).
  assert (Hcidrs : GetAttribute (vpcWithCidrs ["10.2.0.0/8"; "0.0.0.0/0"])
                     "public_access_cidrs" =
                   Some (publicCidrs ["10.2.0.0/8"; "0.0.0.0/0"]))
    by (vm_compute; reflexivity).
  assert (Hopen : cidr.IsOpen (publicCidrs ["10.2.0.0/8"; "0.0.0.0/0"]) = true)
    by (vm_compute; reflexivity).
  exact (conj Hvpc (conj Hcidrs (conj Hopen
           (Evaluate_open_cidrs _ _ _ [earlierFinding] None Hvpc Hpub Hcidrs Hopen)))).
Defined.

Lemma Evaluate_default_cidrs_witness :
  GetBlock clusterDefaultCidrs "vpc_config" = Some vpcDefaultCidrs /\
  GetAttribute vpcDefaultCidrs "public_access_cidrs" = None /\
  exists f,
    eks.Evaluate clusterDefaultCidrs [earlierFinding] None =
      Some ([earlierFinding] ++ [f])%list /\
    result.Severity f = severity.Critical /\
    result.Range (result.FindingResult f) = mkRange "main.tf" 1 10 /\
    result.Annotation (result.FindingResult f) = None /\
    result.ResourceName (result.FindingResult f) = "aws_eks_cluster.example" /\
    result.Description (result.FindingResult f) =
      "Resource 'aws_eks_cluster.example' uses the default public access cidr of 0.0.0.0/0".
Proof.
  assert (Hvpc : GetBlock clusterDefaultCidrs "vpc_config" = Some vpcDefaultCidrs)
    by (vm_compute; reflexivity).
  assert (Hpub : forall a,
             GetAttribute vpcDefaultCidrs "endpoint_public_access" = Some a ->
             IsFalse a = false)
    by (intros a Ha; vm_compute in Ha; injection Ha as <-; reflexivity).
  assert (Hcidrs : GetAttribute vpcDefaultCidrs "public_access_cidrs" = None)
    by (vm_compute; reflexivity).
  exact (conj Hvpc (conj Hcidrs
           (Evaluate_default_cidrs _ _ [earlierFinding] None Hvpc Hpub Hcidrs))).
Defined.

Lemma Evaluate_public_access_disabled_witness :
  GetBlock clusterPrivate "vpc_config" = Some vpcPrivate /\
  GetAttribute vpcPrivate "endpoint_public_access" = Some endpointOff /\
  IsFalse endpointOff = true /\
  eks.Evaluate clusterPrivate [earlierFinding] None = Some [earlierFinding].
Proof.
  assert (Hvpc : GetBlock clusterPrivate "vpc_config" = Some vpcPrivate)
    by (vm_compute; reflexivity).
  assert (Hpub : GetAttribute vpcPrivate "endpoint_public_access" = Some endpointOff)
    by (vm_compute; reflexivity).
  assert (Hfalse : IsFalse endpointOff = true) by reflexivity.
  exact (conj Hvpc (conj Hpub (conj Hfalse
           (Evaluate_public_access_disabled _ _ _ [earlierFinding] None
              Hvpc Hpub Hfalse)))).
Defined.

Lemma Evaluate_no_vpc_config_witness :
  (forall c, In c (Children clusterNoVpcConfig) -> TypeLabel c <> "vpc_config") /\
  eks.Evaluate clusterNoVpcConfig [earlierFinding] None = Some [earlierFinding].
Proof.
  assert (Hnone : forall c, In c (Children clusterNoVpcConfig) ->
                            TypeLabel c <> "vpc_config")
    by (intros c [<-|[]]; simpl; discriminate).
  exact (conj Hnone (Evaluate_no_vpc_config _ [earlierFinding] None Hnone)).
Defined.

Lemma Evaluate_restricted_cidrs_witness :
  GetBlock (clusterWithCidrs ["10.2.0.0/8"]) "vpc_config" =
    Some (vpcWithCidrs ["10.2.0.0/8"]) /\
  GetAttribute (vpcWithCidrs ["10.2.0.0/8"]) "public_access_cidrs" =
    Some (publicCidrs ["10.2.0.0/8"]) /\
  cidr.IsOpen (publicCidrs ["10.2.0.0/8"]) = false /\
  eks.Evaluate (clusterWithCidrs ["10.2.0.0/8"]) [earlierFinding] None =
    Some [earlierFinding].
Proof.
  assert (Hvpc : GetBlock (clusterWithCidrs ["10.2.0.0/8"]) "vpc_config" =
                 Some (vpcWithCidrs ["10.2.0.0/8"]))
    by (vm_compute; reflexivity).
  assert (Hpub : forall a,
             GetAttribute (vpcWithCidrs ["10.2.0.0/8"]) "endpoint_public_access" =
               Some a -> IsFalse a = false)
    by (intros a Ha; vm_compute in Ha; injection Ha as <-; reflexivity).
  assert (Hcidrs : GetAttribute (vpcWithCidrs ["10.2.0.0/8"]) "public_access_cidrs" =
                   Some (publicCidrs ["10.2.0.0/8"]))
    by (vm_compute; reflexivity).
  assert (Hclosed : cidr.IsOpen (publicCidrs ["10.2.0.0/8"]) = false)
    by (vm_compute; reflexivity).
  exact (conj Hvpc (conj Hcidrs (conj Hclosed
           (proj1 (Evaluate_restricted_cidrs _ _ _ [earlierFinding] None
                     Hvpc Hpub Hcidrs) Hclosed)))).
Defined.

Lemma IsOpen_skips_malformed_witness :
  In "10.2.0.0/33" (ValueAsStrings (publicCidrs ["10.2.0.0/33"; "0.0.0.0/0"])) /\
  cidr.ParseCIDR "10.2.0.0/33" = None /\
  cidr.IsOpen (publicCidrs ["10.2.0.0/33"; "0.0.0.0/0"]) =
    cidr.IsOpen (publicCidrs ["0.0.0.0/0"]) /\
  (cidr.IsOpen (publicCidrs ["10.2.0.0/33"; "0.0.0.0/0"]) = true ->
   exists entry' c,
     In entry' (ValueAsStrings (publicCidrs ["10.2.0.0/33"; "0.0.0.0/0"])) /\
     entry' <> "10.2.0.0/33" /\
     cidr.ParseCIDR entry' = Some c /\ cidr.PrefixLen c = 0%N).
Proof.
  assert (Hin : In "10.2.0.0/33"
                  (ValueAsStrings (publicCidrs ["10.2.0.0/33"; "0.0.0.0/0"])))
    by (left; reflexivity).
  assert (Hbad : cidr.ParseCIDR "10.2.0.0/33" = None)
    by (vm_compute; reflexivity).
  pose proof (IsOpen_skips_malformed
                (publicCidrs ["10.2.0.0/33"; "0.0.0.0/0"]) "10.2.0.0/33" Hin Hbad)
    as (Hskip & Hother & _).
  exact (conj Hin (conj Hbad (conj
           (Hskip [] ["0.0.0.0/0"] (publicCidrs ["0.0.0.0/0"]) eq_refl eq_refl)
           Hother))).
Defined.

Lemma Evaluate_noninterference_witness :
  eks.ruleInputs clusterDefaultCidrs = eks.ruleInputs otherClusterDefaultCidrs /\
  exists f1 f2,
    eks.Evaluate clusterDefaultCidrs [] None = Some [f1] /\
    eks.Evaluate otherClusterDefaultCidrs [earlierFinding] None =
      Some [earlierFinding; f2] /\
    result.Severity f1 = result.Severity f2 /\
    result.Description (result.FindingResult f1) =
      eks.defaultCidrDescription "aws_eks_cluster.example" /\
    result.Description (result.FindingResult f2) =
      eks.defaultCidrDescription "aws_eks_cluster.other".
Proof.
  assert (Hsame : eks.ruleInputs clusterDefaultCidrs =
                  eks.ruleInputs otherClusterDefaultCidrs)
    by (vm_compute; reflexivity).
  split; [exact Hsame|].
  destruct (Evaluate_noninterference clusterDefaultCidrs otherClusterDefaultCidrs
              [] [earlierFinding] None None Hsame)
    as [[Hnone _]|(f1 & f2 & H1 & H2 & Hsev & _ & _ & [(D1 & D2 & _)|(D1 & _)])].
  - vm_compute in Hnone. discriminate.
  - exists f1, f2. repeat split; assumption.
  - exfalso. vm_compute in H1. injection H1 as <-. vm_compute in D1. discriminate.
Defined.

(** The scenarios of the rule's documentation, run from an empty collection. *)

Example parse_open_range :
  cidr.ParseCIDR "0.0.0.0/0" = Some (cidr.mkCIDR [0; 0; 0; 0]%N 0%N).
Proof. vm_compute. reflexivity. Qed.

Example parse_private_range :
  cidr.ParseCIDR "10.2.0.0/8" = Some (cidr.mkCIDR [10; 2; 0; 0]%N 8%N).
Proof. vm_compute. reflexivity. Qed.

Example parse_malformed :
  List.map cidr.ParseCIDR [""; "*"; "10.2.0/8"; "10.2.0.0"; "10.2.0.256/8"; "10.2.0.0/"] =
  [None; None; None; None; None; None].
Proof. vm_compute. reflexivity. Qed.

Example scenario_restricted_cidrs :
  eks.Evaluate (clusterWithCidrs ["10.2.0.0/8"]) [] None = Some [].
Proof. vm_compute. reflexivity. Qed.

Example scenario_default_cidrs :
  eks.Evaluate clusterDefaultCidrs [] None =
  Some [result.mkFinding
          (result.mkResult "aws_eks_cluster.example"
             "Resource 'aws_eks_cluster.example' uses the default public access cidr of 0.0.0.0/0"
             (mkRange "main.tf" 1 10) None)
          severity.Critical].
Proof. vm_compute. reflexivity. Qed.

Example scenario_open_cidrs :
  eks.Evaluate (clusterWithCidrs ["0.0.0.0/0"]) [] None =
  Some [result.mkFinding
          (result.mkResult "aws_eks_cluster.example"
             "Resource 'aws_eks_cluster.example' has public access cidr explicitly set to wide open"
             (at_line 8) (Some (publicCidrs ["0.0.0.0/0"])))
          severity.Critical].
Proof. vm_compute. reflexivity. Qed.

Example scenario_public_access_disabled :
  eks.Evaluate clusterPrivate [] None = Some [].
Proof. vm_compute. reflexivity. Qed.

Example scenario_no_vpc_config :
  eks.Evaluate clusterNoVpcConfig [] None = Some [].
Proof. vm_compute. reflexivity. Qed.

Example scenario_empty_cidrs :
  eks.Evaluate (clusterWithCidrs []) [] None = Some [].
Proof. vm_compute. reflexivity. Qed.

End Scenarios.

(** ** Further properties of the check *)

Section MessageFacts.

Lemma list_ascii_of_string_app (s t : string) :
  list_ascii_of_string (s ++ t) =
  (list_ascii_of_string s ++ list_ascii_of_string t)%list.
Proof.
  induction s as [|c s IH]; simpl; [reflexivity|].
  rewrite IH. reflexivity.
Qed.

Lemma append_inv_tail (s1 s2 t : string) : s1 ++ t = s2 ++ t -> s1 = s2.
Proof.
  intros H. apply (f_equal list_ascii_of_string) in H.
  rewrite !list_ascii_of_string_app in H. apply app_inv_tail in H.
  apply (f_equal string_of_list_ascii) in H.
  rewrite !string_of_list_ascii_of_string in H. exact H.
Qed.

Lemma defaultCidrDescription_inj (n1 n2 : string) :
  eks.defaultCidrDescription n1 = eks.defaultCidrDescription n2 -> n1 = n2.
Proof.
  unfold eks.defaultCidrDescription. intros H.
  apply (inj (String.app "Resource '")) in H.
  exact (append_inv_tail _ _ _ H).
Qed.

Lemma openCidrDescription_inj (n1 n2 : string) :
  eks.openCidrDescription n1 = eks.openCidrDescription n2 -> n1 = n2.
Proof.
  unfold eks.openCidrDescription. intros H.
  apply (inj (String.app "Resource '")) in H.
  exact (append_inv_tail _ _ _ H).
Qed.

(** The two messages end differently, so no name makes them coincide. *)
Lemma descriptions_differ (n1 n2 : string) :
  eks.defaultCidrDescription n1 <> eks.openCidrDescription n2.
Proof.
  unfold eks.defaultCidrDescription, eks.openCidrDescription. intros H.
  apply (inj (String.app "Resource '")) in H.
  apply (f_equal list_ascii_of_string) in H.
  rewrite !list_ascii_of_string_app in H.
  apply (f_equal (@List.rev ascii)) in H.
  rewrite !rev_app_distr in H. simpl in H. discriminate H.
Qed.

End MessageFacts.

Section EvaluateFacts.

Import block.

Context {parser : cidr.Parser}.

Lemma Evaluate_cases resource collection ctx :
  match GetBlock resource "vpc_config" with
  | None => eks.Evaluate resource collection ctx = Some collection
  | Some vpcConfig =>
      if match GetAttribute vpcConfig "endpoint_public_access" with
         | Some a => IsFalse a
         | None => false
         end
      then eks.Evaluate resource collection ctx = Some collection
      else
        match GetAttribute vpcConfig "public_access_cidrs" with
        | None =>
            eks.Evaluate resource collection ctx =
            Some (collection ++ [eks.defaultCidrFinding resource])%list
        | Some cidrs =>
            if cidr.IsOpen cidrs
            then eks.Evaluate resource collection ctx =
                 Some (collection ++ [eks.openCidrFinding resource cidrs])%list
            else eks.Evaluate resource collection ctx = Some collection
        end
  end.
Proof.
  destruct (GetBlock resource "vpc_config") as [vpcConfig|] eqn:Hvpc.
  - evaluate_with Hvpc.
    destruct (match GetAttribute vpcConfig "endpoint_public_access" with
              | Some a => IsFalse a
              | None => false
              end); [reflexivity|].
    destruct (GetAttribute vpcConfig "public_access_cidrs") as [cidrs|];
      [destruct (cidr.IsOpen cidrs)|]; reflexivity.
  - unfold eks.Evaluate. simpl.
    rewrite (CheckFunc_no_vpc_config _ _ _ Hvpc). reflexivity.
Qed.

Lemma explicitly_false_iff (o : option Attribute) :
  match o with Some a => IsFalse a | None => false end = false <->
  (forall a, o = Some a -> IsFalse a = false).
Proof.
  split; [|apply not_explicitly_false].
  intros H a ->. exact H.
Qed.

Lemma snoc_neq {A : Type} (l : list A) (x : A) : l <> (l ++ [x])%list.
Proof.
  intros H. apply (f_equal (@List.length A)) in H.
  rewrite length_app in H. simpl in H.
  apply (f_equal (fun n => n - List.length l)%nat) in H.
  rewrite Nat.sub_diag, Nat.add_comm, Nat.add_sub in H. discriminate H.
Qed.

Lemma snoc_inv {A : Type} (l : list A) (x y : A) :
  (l ++ [x])%list = (l ++ [y])%list -> x = y.
Proof. intros H. apply app_inv_head in H. congruence. Qed.

End EvaluateFacts.

(** Splits on the path [Evaluate] takes for [resource]: [Hvpc], [Hpub],
    [Hcidrs] and [Hopen] record the lookups and tests along it, [Hev] the
    collection handed back. *)
Ltac evaluate_cases resource collection ctx :=
  let Hev := fresh "Hev" in
  let Hvpc := fresh "Hvpc" in
  let Hpub := fresh "Hpub" in
  let Hcidrs := fresh "Hcidrs" in
  let Hopen := fresh "Hopen" in
  pose proof (Evaluate_cases resource collection ctx) as Hev;
  destruct (block.GetBlock resource "vpc_config") as [?vpcConfig|] eqn:Hvpc;
  [ destruct (match block.GetAttribute _ "endpoint_public_access" with
              | Some a => block.IsFalse a
              | None => false
              end) eqn:Hpub;
    [ | destruct (block.GetAttribute _ "public_access_cidrs") as [?cidrs|] eqn:Hcidrs;
        [ destruct (cidr.IsOpen _) eqn:Hopen | ] ]
  | ].

Section AppendedFacts.

Import block.

Context {parser : cidr.Parser}.

(** A finding at the end of the collection handed back is one of the two the
    check builds, and the lookups along the path are as that branch needs. *)
Lemma Evaluate_appended_inv resource collection ctx f :
  eks.Evaluate resource collection ctx = Some (collection ++ [f])%list ->
  exists vpcConfig,
    GetBlock resource "vpc_config" = Some vpcConfig /\
    match GetAttribute vpcConfig "endpoint_public_access" with
    | Some a => IsFalse a
    | None => false
    end = false /\
    ((GetAttribute vpcConfig "public_access_cidrs" = None /\
      f = eks.defaultCidrFinding resource) \/
     (exists cidrs,
         GetAttribute vpcConfig "public_access_cidrs" = Some cidrs /\
         cidr.IsOpen cidrs = true /\
         f = eks.openCidrFinding resource cidrs)).
Proof.
  intros H.
  evaluate_cases resource collection ctx; rewrite Hev in H; clear Hev;
    injection H as H;
    try (destruct (snoc_neq _ _ H); fail);
    apply snoc_inv in H; subst f;
    exists vpcConfig; (split; [reflexivity|]); (split; [exact Hpub|]).
  - right. exists cidrs. repeat split; assumption.
  - left. split; [exact Hcidrs|reflexivity].
Qed.

(** What a resource makes the check append: at most one finding, the same for
    every collection and context. *)
Lemma Evaluate_appended_independent resource :
  exists appended,
    (List.length appended <= 1)%nat /\
    forall collection ctx,
      eks.Evaluate resource collection ctx = Some (collection ++ appended)%list.
Proof.
  evaluate_cases resource (@nil result.Finding) (@None hclcontext.Context);
    clear Hev.
  - exists []. split; [simpl; lia|]. intros collection ctx.
    pose proof (Evaluate_cases resource collection ctx) as H.
    rewrite Hvpc, Hpub in H. rewrite app_nil_r. exact H.
  - exists [eks.openCidrFinding resource cidrs]. split; [simpl; lia|].
    intros collection ctx.
    pose proof (Evaluate_cases resource collection ctx) as H.
    rewrite Hvpc, Hpub, Hcidrs, Hopen in H. exact H.
  - exists []. split; [simpl; lia|]. intros collection ctx.
    pose proof (Evaluate_cases resource collection ctx) as H.
    rewrite Hvpc, Hpub, Hcidrs, Hopen in H. rewrite app_nil_r. exact H.
  - exists [eks.defaultCidrFinding resource]. split; [simpl; lia|].
    intros collection ctx.
    pose proof (Evaluate_cases resource collection ctx) as H.
    rewrite Hvpc, Hpub, Hcidrs in H. exact H.
  - exists []. split; [simpl; lia|]. intros collection ctx.
    pose proof (Evaluate_cases resource collection ctx) as H.
    rewrite Hvpc in H. rewrite app_nil_r. exact H.
Qed.

End AppendedFacts.

Section CheckProperties.

Import block.

Context {parser : cidr.Parser}.

(** X1. [Evaluate] appends a finding exactly when [vpc_config] is present, its
    [endpoint_public_access] is absent or not false, and its
    [public_access_cidrs] is absent or classified open; it hands the
    collection back unchanged exactly when [vpc_config] is missing,
    [endpoint_public_access] is present and false, or [public_access_cidrs]
    is present and not classified open. *)
Theorem Evaluate_finding_iff resource collection ctx :
  ((exists f, eks.Evaluate resource collection ctx = Some (collection ++ [f])%list) <->
   exists vpcConfig,
     GetBlock resource "vpc_config" = Some vpcConfig /\
     (forall a, GetAttribute vpcConfig "endpoint_public_access" = Some a ->
                IsFalse a = false) /\
     (GetAttribute vpcConfig "public_access_cidrs" = None \/
      exists cidrs, GetAttribute vpcConfig "public_access_cidrs" = Some cidrs /\
                    cidr.IsOpen cidrs = true)) /\
  (eks.Evaluate resource collection ctx = Some collection <->
   GetBlock resource "vpc_config" = None \/
   exists vpcConfig,
     GetBlock resource "vpc_config" = Some vpcConfig /\
     ((exists a, GetAttribute vpcConfig "endpoint_public_access" = Some a /\
                 IsFalse a = true) \/
      (exists cidrs, GetAttribute vpcConfig "public_access_cidrs" = Some cidrs /\
                     cidr.IsOpen cidrs = false))).
Proof.
  evaluate_cases resource collection ctx; rewrite Hev; clear Hev.
  - (* endpoint_public_access is false *)
    split; split.
    + intros (f & [= Hf]). destruct (snoc_neq _ _ Hf).
    + intros (v & [= <-] & Hnf & _).
      rewrite (not_explicitly_false _ Hnf) in Hpub. discriminate.
    + intros _. right. exists vpcConfig. split; [reflexivity|]. left.
      destruct (GetAttribute vpcConfig "endpoint_public_access") as [a|];
        [|discriminate].
      exists a. split; [reflexivity|exact Hpub].
    + reflexivity.
  - (* public_access_cidrs is open *)
    pose proof (proj1 (explicitly_false_iff _) Hpub) as Hnf.
    clear Hpub. rename Hnf into Hpub. split; split.
    + intros _. exists vpcConfig. split; [reflexivity|]. split; [exact Hpub|].
      right. exists cidrs. split; [exact Hcidrs|exact Hopen].
    + intros _. eexists. reflexivity.
    + intros [= Hf]. symmetry in Hf. destruct (snoc_neq _ _ Hf).
    + intros [[=]|(v & [= <-] & [(a & Ha & Hfalse)|(c & Hc & Hclosed)])].
      * rewrite (Hpub a Ha) in Hfalse. discriminate.
      * congruence.
  - (* public_access_cidrs is not open *)
    pose proof (proj1 (explicitly_false_iff _) Hpub) as Hnf.
    clear Hpub. rename Hnf into Hpub. split; split.
    + intros (f & [= Hf]). destruct (snoc_neq _ _ Hf).
    + intros (v & [= <-] & _ & [Hnone|(c & Hc & Hop)]); congruence.
    + intros _. right. exists vpcConfig. split; [reflexivity|]. right.
      exists cidrs. split; [exact Hcidrs|exact Hopen].
    + reflexivity.
  - (* public_access_cidrs is absent *)
    pose proof (proj1 (explicitly_false_iff _) Hpub) as Hnf.
    clear Hpub. rename Hnf into Hpub. split; split.
    + intros _. exists vpcConfig. split; [reflexivity|]. split; [exact Hpub|].
      left. exact Hcidrs.
    + intros _. eexists. reflexivity.
    + intros [= Hf]. symmetry in Hf. destruct (snoc_neq _ _ Hf).
    + intros [[=]|(v & [= <-] & [(a & Ha & Hfalse)|(c & Hc & _)])].
      * rewrite (Hpub a Ha) in Hfalse. discriminate.
      * congruence.
  - (* no vpc_config *)
    split; split.
    + intros (f & [= Hf]). destruct (snoc_neq _ _ Hf).
    + intros (v & [=] & _).
    + intros _. left. reflexivity.
    + reflexivity.
Qed.

(** X2. A finding that [Evaluate] appends is always Critical and names the
    resource it was raised for. Either [public_access_cidrs] is absent and the
    finding sits at the resource's range with no annotation and the
    default-range message, or the finding is annotated with the
    [public_access_cidrs] attribute of [vpc_config], which is classified open,
    sits at that attribute's range and carries the wide-open message. *)
Theorem Evaluate_finding_sound resource collection ctx f :
  eks.Evaluate resource collection ctx = Some (collection ++ [f])%list ->
  result.Severity f = severity.Critical /\
  result.ResourceName (result.FindingResult f) = FullName resource /\
  exists vpcConfig,
    GetBlock resource "vpc_config" = Some vpcConfig /\
    ((GetAttribute vpcConfig "public_access_cidrs" = None /\
      result.Annotation (result.FindingResult f) = None /\
      result.Range (result.FindingResult f) = BlockRange resource /\
      result.Description (result.FindingResult f) =
        eks.defaultCidrDescription (FullName resource)) \/
     (exists cidrs,
         GetAttribute vpcConfig "public_access_cidrs" = Some cidrs /\
         cidr.IsOpen cidrs = true /\
         result.Annotation (result.FindingResult f) = Some cidrs /\
         result.Range (result.FindingResult f) = AttrRange cidrs /\
         result.Description (result.FindingResult f) =
           eks.openCidrDescription (FullName resource))).
Proof.
  intros H. apply Evaluate_appended_inv in H.
  destruct H as (vpcConfig & Hvpc & _ & [(Hcidrs & ->)|(cidrs & Hcidrs & Hopen & ->)]);
    (split; [reflexivity|]); (split; [reflexivity|]);
    exists vpcConfig; (split; [exact Hvpc|]).
  - left. repeat split. exact Hcidrs.
  - right. exists cidrs. repeat split; assumption.
Qed.

(** X3. The message of a finding tells which resource and which branch it
    comes from: two findings appended by [Evaluate] with equal descriptions
    were raised for resources of the same full name and are both annotated
    or both not. *)
Theorem description_identifies_finding
    resource1 resource2 collection1 collection2 ctx1 ctx2 f1 f2 :
  eks.Evaluate resource1 collection1 ctx1 = Some (collection1 ++ [f1])%list ->
  eks.Evaluate resource2 collection2 ctx2 = Some (collection2 ++ [f2])%list ->
  result.Description (result.FindingResult f1) =
    result.Description (result.FindingResult f2) ->
  FullName resource1 = FullName resource2 /\
  (result.Annotation (result.FindingResult f1) = None <->
   result.Annotation (result.FindingResult f2) = None).
Proof.
  intros H1 H2 Hd.
  apply Evaluate_appended_inv in H1, H2.
  destruct H1 as (v1 & _ & _ & [(_ & ->)|(c1 & _ & _ & ->)]);
    destruct H2 as (v2 & _ & _ & [(_ & ->)|(c2 & _ & _ & ->)]);
    simpl in Hd |- *.
  - split; [exact (defaultCidrDescription_inj _ _ Hd)|]. split; reflexivity.
  - destruct (descriptions_differ _ _ Hd).
  - symmetry in Hd. destruct (descriptions_differ _ _ Hd).
  - split; [exact (openCidrDescription_inj _ _ Hd)|]. split; discriminate.
Qed.

(** X4. The check does not look for an equal finding already in the
    collection: evaluating a flagged resource again on the collection it has
    just extended appends the same finding a second time. *)
Theorem Evaluate_again_duplicates resource collection ctx ctx' f :
  eks.Evaluate resource collection ctx = Some (collection ++ [f])%list ->
  eks.Evaluate resource (collection ++ [f])%list ctx' =
    Some (collection ++ [f; f])%list.
Proof.
  intros H. apply Evaluate_appended_inv in H.
  destruct H as (vpcConfig & Hvpc & Hpub & [(Hcidrs & ->)|(cidrs & Hcidrs & Hopen & ->)]).
  - pose proof (Evaluate_cases resource
                  (collection ++ [eks.defaultCidrFinding resource])%list ctx') as H.
    rewrite Hvpc, Hpub, Hcidrs in H. rewrite H, <- app_assoc. reflexivity.
  - pose proof (Evaluate_cases resource
                  (collection ++ [eks.openCidrFinding resource cidrs])%list ctx') as H.
    rewrite Hvpc, Hpub, Hcidrs, Hopen in H. rewrite H, <- app_assoc. reflexivity.
Qed.

(** X5. The order in which two resources are evaluated on a shared collection
    does not change what is reported: both orders succeed, keep the initial
    collection as a prefix, add at most two findings, and hand back
    collections that are permutations of each other. *)
Theorem Evaluate_order_irrelevant resource1 resource2 collection ctx1 ctx2 :
  exists added12 added21,
    (eks.Evaluate resource1 collection ctx1 ≫=
       fun c => eks.Evaluate resource2 c ctx2) = Some (collection ++ added12)%list /\
    (eks.Evaluate resource2 collection ctx2 ≫=
       fun c => eks.Evaluate resource1 c ctx1) = Some (collection ++ added21)%list /\
    (List.length added12 <= 2)%nat /\
    Permutation added12 added21.
Proof.
  destruct (Evaluate_appended_independent resource1) as (a1 & Hl1 & H1).
  destruct (Evaluate_appended_independent resource2) as (a2 & Hl2 & H2).
  exists (a1 ++ a2)%list, (a2 ++ a1)%list.
  rewrite (H1 collection ctx1), (H2 collection ctx2). simpl.
  rewrite H1, H2, <- !app_assoc.
  repeat split.
  - rewrite length_app. lia.
  - apply Permutation_app_comm.
Qed.

End CheckProperties.

(** ** The further properties on the sample resources *)

Section FurtherScenarios.

Import block fixtures.

#[local] Existing Instance cidr.ipv4_parser.

Lemma Evaluate_finding_sound_witness :
  eks.Evaluate (clusterWithCidrs ["10.2.0.0/8"; "0.0.0.0/0"]) [earlierFinding] None =
    Some ([earlierFinding] ++
          [eks.openCidrFinding (clusterWithCidrs ["10.2.0.0/8"; "0.0.0.0/0"])
             (publicCidrs ["10.2.0.0/8"; "0.0.0.0/0"])])%list /\
  exists vpcConfig,
    GetBlock (clusterWithCidrs ["10.2.0.0/8"; "0.0.0.0/0"]) "vpc_config" =
      Some vpcConfig /\
    GetAttribute vpcConfig "public_access_cidrs" =
      Some (publicCidrs ["10.2.0.0/8"; "0.0.0.0/0"]).
Proof.
  assert (Hev : eks.Evaluate (clusterWithCidrs ["10.2.0.0/8"; "0.0.0.0/0"])
                  [earlierFinding] None =
                Some ([earlierFinding] ++
                      [eks.openCidrFinding
                         (clusterWithCidrs ["10.2.0.0/8"; "0.0.0.0/0"])
                         (publicCidrs ["10.2.0.0/8"; "0.0.0.0/0"])])%list)
    by (vm_compute; reflexivity).
  split; [exact Hev|].
  destruct (Evaluate_finding_sound _ _ _ _ Hev)
    as (_ & _ & vpcConfig & Hvpc & [(_ & Hann & _)|(cidrs & Hcidrs & _ & Hann & _)]).
  - simpl in Hann. discriminate.
  - exists vpcConfig. split; [exact Hvpc|].
    simpl in Hann. injection Hann as <-. exact Hcidrs.
Defined.

Lemma description_identifies_finding_witness :
  eks.Evaluate clusterDefaultCidrs [] None =
    Some ([] ++ [eks.defaultCidrFinding clusterDefaultCidrs])%list /\
  eks.Evaluate (cluster [vpcConfig []]) [earlierFinding] None =
    Some ([earlierFinding] ++ [eks.defaultCidrFinding (cluster [vpcConfig []])])%list /\
  FullName clusterDefaultCidrs = FullName (cluster [vpcConfig []]) /\
  (result.Annotation
     (result.FindingResult (eks.defaultCidrFinding clusterDefaultCidrs)) = None <->
   result.Annotation
     (result.FindingResult (eks.defaultCidrFinding (cluster [vpcConfig []]))) = None).
Proof.
  assert (H1 : eks.Evaluate clusterDefaultCidrs [] None =
               Some ([] ++ [eks.defaultCidrFinding clusterDefaultCidrs])%list)
    by (vm_compute; reflexivity).
  assert (H2 : eks.Evaluate (cluster [vpcConfig []]) [earlierFinding] None =
               Some ([earlierFinding] ++
                     [eks.defaultCidrFinding (cluster [vpcConfig []])])%list)
    by (vm_compute; reflexivity).
  exact (conj H1 (conj H2
           (description_identifies_finding _ _ _ _ _ _ _ _ H1 H2 eq_refl))).
Defined.

Lemma Evaluate_again_duplicates_witness :
  eks.Evaluate clusterDefaultCidrs [earlierFinding] None =
    Some ([earlierFinding] ++ [eks.defaultCidrFinding clusterDefaultCidrs])%list /\
  eks.Evaluate clusterDefaultCidrs
    ([earlierFinding] ++ [eks.defaultCidrFinding clusterDefaultCidrs])%list None =
    Some ([earlierFinding] ++
          [eks.defaultCidrFinding clusterDefaultCidrs;
           eks.defaultCidrFinding clusterDefaultCidrs])%list.
Proof.
  assert (H : eks.Evaluate clusterDefaultCidrs [earlierFinding] None =
              Some ([earlierFinding] ++
                    [eks.defaultCidrFinding clusterDefaultCidrs])%list)
    by (vm_compute; reflexivity).
  exact (conj H (Evaluate_again_duplicates _ _ None None _ H)).
Defined.

End FurtherScenarios.
